(** * aws-container-pulumi: the resource graph built by [Service]

    A shallow embedding of [src/service.ts] (with the types of [types.ts]).
    The program only describes resources: every [new aws.X(name, args, opts)]
    is a registration request handed to the provisioning engine.  The model
    keeps those requests, in the order in which the code issues them, in an
    explicit registry threaded through a state-and-exception monad, and the
    theorems below read the requests back. *)

From Stdlib Require Import String List Bool Arith Lia.
From Stdlib Require Import Floats.PrimFloat.
Import ListNotations.
Open Scope string_scope.

(** ** JavaScript values *)

Module JS.

(** A JavaScript [number] is an IEEE 754 binary64 value. *)
Definition number := float.

(** [ToBoolean]: the test performed by [c ? a : b], [if (c)] and [a || b]. *)
Class ToBoolean (A : Type) := toBoolean : A -> bool.

(** A string is falsy exactly when it is empty. *)
#[export] Instance ToBoolean_string : ToBoolean string :=
  fun s => negb (s =? "").

(** A number is falsy exactly when it is [+0], [-0] or [NaN]. *)
#[export] Instance ToBoolean_number : ToBoolean number :=
  fun n => negb (is_zero n || is_nan n).

(** An optional property [p?: T] is [undefined] (falsy) or a [T]. *)
#[export] Instance ToBoolean_option {A} `{ToBoolean A} : ToBoolean (option A) :=
  fun o => match o with
           | Some a => toBoolean a
           | None => false
           end.

(** [a || b] for an optional [a] and a default [b] of the same type. *)
Definition or_else {A} `{ToBoolean A} (a : option A) (b : A) : A :=
  match a with
  | Some x => if toBoolean x then x else b
  | None => b
  end.

(** A string-typed optional inside a template literal: [`${s}`]. *)
Definition template (s : option string) : string :=
  match s with
  | Some x => x
  | None => "undefined"
  end.

End JS.
Export JS.

(** ** The provisioning engine's interface *)

Module Pulumi.

Inductive ResourceType : Set :=
| Component_Service          (* the component itself: super("Service", name) *)
| EC2_SecurityGroup          (* aws.ec2.SecurityGroup *)
| EC2_SecurityGroupRule      (* aws.ec2.SecurityGroupRule *)
| LB_LoadBalancer            (* aws.lb.LoadBalancer *)
| LB_TargetGroup             (* aws.lb.TargetGroup *)
| LB_Listener                (* aws.lb.Listener *)
| Route53_Record             (* aws.route53.Record *)
| ACM_Certificate            (* aws.acm.Certificate *)
| ACM_CertificateValidation  (* aws.acm.CertificateValidation *)
| ECS_Cluster                (* aws.ecs.Cluster *)
| ECS_TaskDefinition         (* aws.ecs.TaskDefinition *)
| ECS_Service                (* aws.ecs.Service *)
| IAM_Policy                 (* aws.iam.Policy *)
| IAM_Role                   (* aws.iam.Role *)
| AppAutoscaling_Target      (* aws.appautoscaling.Target *)
| AppAutoscaling_Policy.     (* aws.appautoscaling.Policy *)

Scheme Equality for ResourceType.

(** A resource is referred to by its type and its logical name. *)
Record URN : Set := mkURN { urnType : ResourceType; urnName : string }.

(** What the engine resolves at apply time: the output properties of the
    resources, the zone looked up by [aws.route53.getZone] and the caller
    identity of [aws.getCallerIdentityOutput]. *)
Record Engine : Type := mkEngine {
  attribute : URN -> string -> string;
  zoneIdOf : string -> string;
  accountId : string
}.

(** [pulumi.Output<T>] (and the promise of [getZone]): a value that is only
    known once the engine has resolved it. *)
Definition Output (A : Type) : Type := Engine -> A.

Definition attr (r : URN) (path : string) : Output string :=
  fun e => attribute e r path.

(** [o.apply(f)] *)
Definition apply {A B} (o : Output A) (f : A -> B) : Output B :=
  fun e => f (o e).

(** Property bags: the object literals handed to the resource constructors. *)
#[local] Unset Elimination Schemes.
Inductive value : Type :=
| VUndefined
| VBool (b : bool)
| VNumber (n : number)
| VString (s : string)
| VOutput (o : Output string)
| VArray (items : list value)
| VObject (fields : list (string * value)).
#[local] Set Elimination Schemes.

Definition object := list (string * value).

Fixpoint getField (k : string) (o : object) : option value :=
  match o with
  | [] => None
  | (k', v) :: rest => if k =? k' then Some v else getField k rest
  end.

(** [o.k = v] on an object literal: overwrite in place, else add last. *)
Fixpoint setField (k : string) (v : value) (o : object) : object :=
  match o with
  | [] => [(k, v)]
  | (k', v') :: rest =>
      if k =? k' then (k', v) :: rest else (k', v') :: setField k v rest
  end.

(** [pulumi.CustomResourceOptions], as far as the program touches it. *)
Record ResourceOptions : Type := mkOpts {
  parent : option URN;
  dependsOn : option (list URN);
  otherOptions : object
}.

Definition noOptions : ResourceOptions :=
  {| parent := None; dependsOn := None; otherOptions := [] |}.

(** [{ ...opts }] where [opts] may be [undefined]. *)
Definition spread (opts : option ResourceOptions) : ResourceOptions :=
  match opts with
  | Some o => o
  | None => noOptions
  end.

(** [{ ...opts, parent: p }] *)
Definition withParent (opts : option ResourceOptions) (p : URN) : ResourceOptions :=
  {| parent := Some p;
     dependsOn := dependsOn (spread opts);
     otherOptions := otherOptions (spread opts) |}.

(** [{ ...opts, dependsOn: deps }] *)
Definition withDependsOn (opts : option ResourceOptions) (deps : list URN) : ResourceOptions :=
  {| parent := parent (spread opts);
     dependsOn := Some deps;
     otherOptions := otherOptions (spread opts) |}.

(** One registration request. *)
Record Resource : Type := mkResource {
  rtype : ResourceType;
  rname : string;
  rargs : object;
  ropts : option ResourceOptions
}.

Definition urnOf (r : Resource) : URN := mkURN (rtype r) (rname r).

(** The requests issued so far, oldest first. *)
Definition Registry := list Resource.

Definition resourcesOfType (t : ResourceType) (rs : list Resource) : list Resource :=
  filter (fun r => ResourceType_beq (rtype r) t) rs.

(** *** The monad of the program: a registry, and exceptions *)

Inductive result (A : Type) : Type :=
| Ok (a : A)
| Throw (message : string).
Arguments Ok {A} a.
Arguments Throw {A} message.

Definition M (A : Type) : Type := Registry -> result A * Registry.

Definition ret {A} (a : A) : M A := fun st => (Ok a, st).

Definition bind {A B} (m : M A) (f : A -> M B) : M B :=
  fun st =>
    match m st with
    | (Ok a, st') => f a st'
    | (Throw msg, st') => (Throw msg, st')
    end.

(** [new T(name, args, opts)].  Every resource class, the component
    included, extends [pulumi.Resource], whose constructor refuses a falsy
    logical name: it throws a [ResourceError] and nothing is registered. *)
Definition register (t : ResourceType) (name : string) (args : object)
    (opts : option ResourceOptions) : M URN :=
  fun st =>
    if toBoolean name
    then (Ok (mkURN t name), (st ++ [mkResource t name args opts])%list)
    else (Throw "Missing resource name argument (for URN creation)", st).

(** *** Reading a run back *)

(** The requests a computation issues when started on an empty registry. *)
Definition requests {A} (m : M A) : list Resource := snd (m []).

(** The value (or exception) a computation ends with. *)
Definition outcome {A} (m : M A) (st : Registry) : result A := fst (m st).

End Pulumi.
Export Pulumi.

Declare Scope program_scope.
Delimit Scope program_scope with program.
Notation "x <- c1 ;; c2" := (bind c1 (fun x => c2))
  (at level 61, c1 at next level, right associativity) : program_scope.
Notation "' pat <- c1 ;; c2" := (bind c1 (fun x => match x with pat => c2 end))
  (at level 61, pat pattern, c1 at next level, right associativity) : program_scope.
Notation "c1 ;; c2" := (bind c1 (fun _ => c2))
  (at level 61, right associativity) : program_scope.

(** ** types.ts *)

Definition Tags := option (list (string * string)).

Definition tagsValue (tags : Tags) : value :=
  match tags with
  | Some kvs => VObject (map (fun kv => (fst kv, VString (snd kv))) kvs)
  | None => VUndefined
  end.

(** [Subnet] of the network library: only [subnet.resource.id] is read. *)
Record SubnetResource : Type := { id : Output string }.
Record Subnet : Type := { resource : SubnetResource }.

Record AutoscalingConfig : Type := {
  min : number;
  max : number;
  cpuAvgThreshold : option number
}.

(** An object is always truthy. *)
#[export] Instance ToBoolean_AutoscalingConfig : ToBoolean AutoscalingConfig :=
  fun _ => true.

(** [CreateServiceArgs = ServiceConfig & { vpcId, region, subnets, tags }];
    the [name] property is [serviceName] here, as the constructor renames it. *)
Record CreateServiceArgs : Type := {
  serviceName : string;
  image : string;
  port : number;
  cpu : option string;
  memory : option string;
  autoscaling : option AutoscalingConfig;
  hostedZone : option string;
  vpcId : Output string;
  region : string;
  subnets : list Subnet;
  tags : Tags
}.

Record CreateSecurityGroupArgs : Type := {
  sg_serviceName : string;
  sg_port : number;
  sg_vpcId : Output string;
  sg_lbSecurityGroupId : Output string;
  sg_tags : Tags
}.

Record CreateLoadBalancerArgs : Type := {
  lb_serviceName : string;
  lb_vpcId : Output string;
  lb_subnets : list Subnet;
  lb_hostedZone : option string;
  lb_tags : Tags
}.

Record LoadBalancer : Type := {
  securityGroupId : Output string;
  targetGroupArn : Output string;
  dnsName : option (Output string)
}.

(** The [Service] object once constructed: [this.name] and [this.url], the
    latter of type [pulumi.Output<string> | string]. *)
Record Service : Type := {
  name : string;
  url : string + Output string
}.

Definition resolve (u : string + Output string) (e : Engine) : string :=
  match u with
  | inl s => s
  | inr o => o e
  end.

(** ** service.ts *)

Section Program.

Open Scope program_scope.
Open Scope float_scope.

(** [const stack = pulumi.getStack()]: the active deployment identifier. *)
Variable stack : string.

(** The built-in [JSON.stringify], applied by the code to plain object and
    array literals. *)
Variable JSON_stringify : value -> string.

Definition stackName (name : string) : string := name ++ "-" ++ stack.

(** [const identity = aws.getCallerIdentityOutput()] *)
Definition identity : Output string := accountId.

(** [aws.route53.getZone({ name }).then(zone => zone.zoneId)] *)
Definition getZone_zoneId (name : string) : Output string :=
  fun e => zoneIdOf e name.

Definition subnetIds (subnets : list Subnet) : value :=
  VArray (map (fun s => VOutput (id (resource s))) subnets).

(** [validateServiceArgs]: the body is a TODO comment. *)
Definition validateServiceArgs (args : CreateServiceArgs) : M unit :=
  ret tt.

Definition createSecurityGroup (this_name : string) (args : CreateSecurityGroupArgs)
    (opts : option ResourceOptions) : M URN :=
  let serviceName := sg_serviceName args in
  let port := sg_port args in
  register EC2_SecurityGroup (this_name ++ "-security-group")
    [ ("name", VString ("ecs-" ++ stackName serviceName));
      ("vpcId", VOutput (sg_vpcId args));
      ("ingress", VArray [
         VObject [ ("protocol", VString "tcp");
                   ("fromPort", VNumber port);
                   ("toPort", VNumber port);
                   ("securityGroups", VArray [VOutput (sg_lbSecurityGroupId args)]) ] ]);
      ("egress", VArray [
         VObject [ ("protocol", VString "all");
                   ("fromPort", VNumber 0);
                   ("toPort", VNumber 0);
                   ("cidrBlocks", VArray [VString "0.0.0.0/0"]) ] ]);
      ("tags", tagsValue (sg_tags args)) ]
    opts.

(** The [if (hostedZone) { ... }] block of [createLoadBalancer]; it updates
    the listener configuration and the listener's dependency list, which the
    code mutates in place and which are passed and returned here. *)
Definition tlsBranch (this_name serviceName : string) (hostedZone : option string)
    (tags : Tags) (opts : option ResourceOptions) (alb : URN)
    (albListenerConfig : object) (albListenerDependencies : list URN)
    : M (object * list URN) :=
  let serviceDomain := stackName serviceName ++ "." ++ template hostedZone in
  let zone := getZone_zoneId (template hostedZone) in
  _ <- register Route53_Record (this_name ++ "-dns-record")
    [ ("name", VString serviceDomain);
      ("type", VString "A");
      ("zoneId", VOutput zone);
      ("aliases", VArray [
         VObject [ ("name", VOutput (attr alb "dnsName"));
                   ("zoneId", VOutput (attr alb "zoneId"));
                   ("evaluateTargetHealth", VBool true) ] ]) ]
    opts ;;
  cert <- register ACM_Certificate (this_name ++ "-certificate")
    [ ("domainName", VString serviceDomain);
      ("validationMethod", VString "DNS");
      ("tags", tagsValue tags) ]
    opts ;;
  validationDNS <- register Route53_Record (this_name ++ "-certificate-dns-validation")
    [ ("name", VOutput (attr cert "domainValidationOptions[0].resourceRecordName"));
      ("type", VString "CNAME");
      ("zoneId", VOutput zone);
      ("records", VArray [VOutput (attr cert "domainValidationOptions[0].resourceRecordValue")]);
      ("ttl", VNumber 300) ]
    opts ;;
  certificateValidation <- register ACM_CertificateValidation
    (this_name ++ "-certificate-validation")
    [ ("certificateArn", VOutput (attr cert "arn"));
      ("validationRecordFqdns",
       VArray [VOutput (attr cert "domainValidationOptions[0].resourceRecordName")]) ]
    (Some (withDependsOn opts [validationDNS])) ;;
  ret (setField "certificateArn" (VOutput (attr cert "arn")) albListenerConfig,
       (albListenerDependencies ++ [certificateValidation])%list).

Definition createLoadBalancer (this_name : string) (args : CreateLoadBalancerArgs)
    (opts : option ResourceOptions) : M LoadBalancer :=
  let serviceName := lb_serviceName args in
  let vpcId := lb_vpcId args in
  let subnets := lb_subnets args in
  let hostedZone := lb_hostedZone args in
  let tags := lb_tags args in
  let exposedPort : number := if toBoolean hostedZone then 443 else 80 in
  albSecurityGroup <- register EC2_SecurityGroup (this_name ++ "-alb-security-group")
    [ ("name", VString ("alb-" ++ stackName serviceName));
      ("vpcId", VOutput vpcId);
      ("ingress", VArray [
         VObject [ ("protocol", VString "tcp");
                   ("fromPort", VNumber exposedPort);
                   ("toPort", VNumber exposedPort);
                   ("cidrBlocks", VArray [VString "0.0.0.0/0"]) ] ]);
      ("tags", tagsValue tags) ]
    opts ;;
  alb <- register LB_LoadBalancer (this_name ++ "-app-lb")
    [ ("internal", VBool false);
      ("securityGroups", VArray [VOutput (attr albSecurityGroup "id")]);
      ("subnets", subnetIds subnets);
      ("tags", tagsValue tags) ]
    opts ;;
  albTargetGroup <- register LB_TargetGroup (this_name ++ "-lb-target-group")
    [ ("port", VNumber 80);
      ("protocol", VString "HTTP");
      ("targetType", VString "ip");
      ("vpcId", VOutput vpcId);
      ("tags", tagsValue tags) ]
    opts ;;
  let albListenerConfig : object :=
    [ ("loadBalancerArn", VOutput (attr alb "arn"));
      ("port", VNumber exposedPort);
      ("protocol", VString (if toBoolean hostedZone then "HTTPS" else "HTTP"));
      ("defaultActions", VArray [
         VObject [ ("type", VString "forward");
                   ("targetGroupArn", VOutput (attr albTargetGroup "arn")) ] ]);
      ("tags", tagsValue tags) ] in
  let albListenerDependencies : list URN := [albTargetGroup] in
  '(albListenerConfig, albListenerDependencies) <-
    (if toBoolean hostedZone
     then tlsBranch this_name serviceName hostedZone tags opts alb
            albListenerConfig albListenerDependencies
     else ret (albListenerConfig, albListenerDependencies)) ;;
  _ <- register LB_Listener "listener" albListenerConfig
    (Some (withDependsOn opts albListenerDependencies)) ;;
  ret {| securityGroupId := attr albSecurityGroup "id";
         targetGroupArn := attr albTargetGroup "arn";
         dnsName := Some (attr alb "dnsName") |}.

(** [${o}] inside [pulumi.interpolate], for an output that may be missing. *)
Definition interpolated (o : option (Output string)) : Output string :=
  match o with
  | Some out => out
  | None => fun _ => "undefined"
  end.

(** The argument of [JSON.stringify] in the task-execution policy. *)
Definition taskExecPolicyDocument (serviceName region accountId : string) : value :=
  VObject [
    ("Statement", VArray [
       VObject [
         ("Action", VArray [VString "logs:CreateLogGroup"; VString "logs:CreateLogStream"]);
         ("Resource", VArray [
            VString ("arn:aws:logs:" ++ region ++ ":" ++ accountId
                     ++ ":log-group:awslogs-" ++ stackName serviceName);
            VString ("arn:aws:logs:" ++ region ++ ":" ++ accountId
                     ++ ":log-group:awslogs-" ++ stackName serviceName ++ ":log-stream:*") ]);
         ("Effect", VString "Allow") ] ]);
    ("Version", VString "2012-10-17") ].

(** The argument of [JSON.stringify] in the role's trust policy. *)
Definition assumeRolePolicyDocument : value :=
  VObject [
    ("Statement", VArray [
       VObject [
         ("Action", VArray [VString "sts:AssumeRole"]);
         ("Principal", VObject [("Service", VString "ecs-tasks.amazonaws.com")]);
         ("Effect", VString "Allow") ] ]);
    ("Version", VString "2012-10-17") ].

(** The argument of [JSON.stringify] in the task definition. *)
Definition containerDefinitionsDocument (serviceName image : string) (port : number)
    (region : string) : value :=
  VArray [
    VObject [
      ("name", VString (stackName serviceName));
      ("image", VString image);
      ("portMappings", VArray [
         VObject [ ("containerPort", VNumber port);
                   ("hostPort", VNumber port);
                   ("protocol", VString "tcp") ] ]);
      ("logConfiguration", VObject [
         ("logDriver", VString "awslogs");
         ("options", VObject [
            ("awslogs-create-group", VString "true");
            ("awslogs-group", VString ("awslogs-" ++ stackName serviceName));
            ("awslogs-region", VString region);
            ("awslogs-stream-prefix",
             VString ("awslogs-" ++ stackName serviceName ++ "-" ++ serviceName)) ]) ]) ] ].

(** The [if (autoscaling) { ... }] block of the constructor. *)
Definition attachAutoscaling (name : string) (autoscaling : option AutoscalingConfig)
    (opts : option ResourceOptions) (this cluster service : URN) : M unit :=
  match autoscaling with
  | Some cfg =>
      if toBoolean cfg then
        let resourceId : Output string :=
          fun e => "service/" ++ attr cluster "name" e ++ "/" ++ attr service "name" e in
        _ <- register AppAutoscaling_Target (name ++ "-scaling-target")
          [ ("maxCapacity", VNumber (max cfg));
            ("minCapacity", VNumber (min cfg));
            ("resourceId", VOutput resourceId);
            ("scalableDimension", VString "ecs:service:DesiredCount");
            ("serviceNamespace", VString "ecs") ]
          (Some (withParent opts this)) ;;
        _ <- register AppAutoscaling_Policy (name ++ "-scaling-policy")
          [ ("resourceId", VOutput resourceId);
            ("policyType", VString "TargetTrackingScaling");
            ("scalableDimension", VString "ecs:service:DesiredCount");
            ("serviceNamespace", VString "ecs");
            ("targetTrackingScalingPolicyConfiguration", VObject [
               ("targetValue", VNumber (or_else (cpuAvgThreshold cfg) 75));
               ("predefinedMetricSpecification", VObject [
                  ("predefinedMetricType", VString "ECSServiceAverageCPUUtilization") ]) ]) ]
          (Some (withParent opts this)) ;;
        ret tt
      else ret tt
  | None => ret tt
  end.

(** [new Service(name, args, opts)].  The first step is [super("Service",
    name)], the registration of the component itself: with an empty [name] it
    throws, and nothing below it runs. *)
Definition Service_new (name : string) (args : CreateServiceArgs)
    (opts : option ResourceOptions) : M Service :=
  this <- register Component_Service name [] None ;;
  _ <- validateServiceArgs args ;;
  let this_name := name in
  let childOpts := Some (withParent opts this) in
  cluster <- register ECS_Cluster (name ++ "-cluster")
    [ ("name", VString (stackName (serviceName args)));
      ("tags", tagsValue (tags args)) ]
    childOpts ;;
  lb <- createLoadBalancer this_name
    {| lb_serviceName := serviceName args;
       lb_hostedZone := hostedZone args;
       lb_vpcId := vpcId args;
       lb_subnets := subnets args;
       lb_tags := tags args |}
    childOpts ;;
  let lbSecurityGroupId := securityGroupId lb in
  let lbTargetGroupArn := targetGroupArn lb in
  securityGroup <- createSecurityGroup this_name
    {| sg_serviceName := stackName (serviceName args);
       sg_port := port args;
       sg_vpcId := vpcId args;
       sg_lbSecurityGroupId := lbSecurityGroupId;
       sg_tags := tags args |}
    childOpts ;;
  taskExecPolicy <- register IAM_Policy (name ++ "-task-exec-policy")
    [ ("policy", VOutput (apply identity (fun accountId =>
         JSON_stringify (taskExecPolicyDocument (serviceName args) (region args) accountId))));
      ("tags", tagsValue (tags args)) ]
    childOpts ;;
  role <- register IAM_Role (name ++ "-task-exec-role")
    [ ("assumeRolePolicy", VString (JSON_stringify assumeRolePolicyDocument));
      ("managedPolicyArns", VArray [VOutput (attr taskExecPolicy "arn")]);
      ("tags", tagsValue (tags args)) ]
    childOpts ;;
  taskDefinition <- register ECS_TaskDefinition (name ++ "-task-definitions")
    [ ("family", VString "fargate-task-definition");
      ("cpu", VString (or_else (cpu args) "256"));
      ("memory", VString (or_else (memory args) "512"));
      ("networkMode", VString "awsvpc");
      ("requiresCompatibilities", VArray [VString "FARGATE"]);
      ("executionRoleArn", VOutput (attr role "arn"));
      ("containerDefinitions", VString (JSON_stringify
         (containerDefinitionsDocument (serviceName args) (image args) (port args)
            (region args))));
      ("tags", tagsValue (tags args)) ]
    childOpts ;;
  _ <- register EC2_SecurityGroupRule (name ++ "-alb-ecs-egress")
    [ ("protocol", VString "tcp");
      ("type", VString "egress");
      ("fromPort", VNumber (port args));
      ("toPort", VNumber (port args));
      ("securityGroupId", VOutput lbSecurityGroupId);
      ("sourceSecurityGroupId", VOutput (attr securityGroup "id")) ]
    childOpts ;;
  service <- register ECS_Service (name ++ "-app-service")
    [ ("cluster", VOutput (attr cluster "id"));
      ("launchType", VString "FARGATE");
      ("taskDefinition", VOutput (attr taskDefinition "arn"));
      ("networkConfiguration", VObject [
         ("assignPublicIp", VBool true);
         ("subnets", subnetIds (subnets args));
         ("securityGroups", VArray [VOutput (attr securityGroup "id")]) ]);
      ("waitForSteadyState", VBool false);
      ("loadBalancers", VArray [
         VObject [ ("targetGroupArn", VOutput lbTargetGroupArn);
                   ("containerName", VString (stackName (serviceName args)));
                   ("containerPort", VNumber (port args)) ] ]);
      ("tags", tagsValue (tags args)) ]
    childOpts ;;
  _ <- attachAutoscaling name (autoscaling args) opts this cluster service ;;
  ret {| name := this_name;
         url := if toBoolean (hostedZone args)
                then inl ("https://" ++ stackName (serviceName args) ++ "."
                          ++ template (hostedZone args))
                else inr (fun e => "http://" ++ interpolated (dnsName lb) e) |}.

(** ** What the specification says of a set of requests

    Each predicate reads a list of registration requests the way the
    specification describes the resulting topology. *)

(** The dependencies a request declares explicitly. *)
Definition explicitDependencies (r : Resource) : list URN :=
  match ropts r with
  | Some o => match dependsOn o with
              | Some deps => deps
              | None => []
              end
  | None => []
  end.

(** There is one listener; it has the given port and protocol. *)
Definition listenerIs (rs : list Resource) (p : number) (proto : string)
    (listener : Resource) : Prop :=
  resourcesOfType LB_Listener rs = [listener] /\
  getField "port" (rargs listener) = Some (VNumber p) /\
  getField "protocol" (rargs listener) = Some (VString proto).

(** The TLS topology: an HTTPS listener on 443, a certificate for [domain],
    and a listener that waits for the target group and for the validation of
    the certificate. *)
Definition tlsIngress (rs : list Resource) (domain : string) : Prop :=
  exists listener targetGroup cert validation,
    listenerIs rs 443 "HTTPS" listener /\
    resourcesOfType ACM_Certificate rs = [cert] /\
    getField "domainName" (rargs cert) = Some (VString domain) /\
    resourcesOfType LB_TargetGroup rs = [targetGroup] /\
    resourcesOfType ACM_CertificateValidation rs = [validation] /\
    In (urnOf targetGroup) (explicitDependencies listener) /\
    In (urnOf validation) (explicitDependencies listener).

(** The plain topology: an HTTP listener on 80 that waits for the target
    group only, and no certificate, DNS record or validation. *)
Definition plainIngress (rs : list Resource) : Prop :=
  exists listener targetGroup,
    listenerIs rs 80 "HTTP" listener /\
    resourcesOfType ACM_Certificate rs = [] /\
    resourcesOfType Route53_Record rs = [] /\
    resourcesOfType ACM_CertificateValidation rs = [] /\
    resourcesOfType LB_TargetGroup rs = [targetGroup] /\
    explicitDependencies listener = [urnOf targetGroup].

(** The url is the plain string [https://<host>]. *)
Definition httpsUrl (svc : Service) (host : string) : Prop :=
  url svc = inl ("https://" ++ host).

(** The url is the deferred string [http://<dns name of the load balancer>]. *)
Definition httpUrlOfLoadBalancer (svc : Service) (rs : list Resource) : Prop :=
  exists alb deferred,
    resourcesOfType LB_LoadBalancer rs = [alb] /\
    url svc = inr deferred /\
    forall e, deferred e = "http://" ++ attribute e (urnOf alb) "dnsName".

(** One scaling target with the bounds of [cfg], and one target-tracking
    policy with the given target value. *)
Definition scalingResources (rs : list Resource) (cfg : AutoscalingConfig)
    (target : number) : Prop :=
  exists scalingTarget policy tracking,
    resourcesOfType AppAutoscaling_Target rs = [scalingTarget] /\
    getField "minCapacity" (rargs scalingTarget) = Some (VNumber (min cfg)) /\
    getField "maxCapacity" (rargs scalingTarget) = Some (VNumber (max cfg)) /\
    resourcesOfType AppAutoscaling_Policy rs = [policy] /\
    getField "policyType" (rargs policy) = Some (VString "TargetTrackingScaling") /\
    getField "targetTrackingScalingPolicyConfiguration" (rargs policy)
      = Some (VObject tracking) /\
    getField "targetValue" tracking = Some (VNumber target).

Definition noScalingResources (rs : list Resource) : Prop :=
  resourcesOfType AppAutoscaling_Target rs = [] /\
  resourcesOfType AppAutoscaling_Policy rs = [].

(** There is one task definition, and its property [k] is the string [v]. *)
Definition taskDefinitionHas (rs : list Resource) (k v : string) : Prop :=
  exists td,
    resourcesOfType ECS_TaskDefinition rs = [td] /\
    getField k (rargs td) = Some (VString v).

(** The single inbound rule and the single outbound rule of a security group. *)
Definition ingressFromPeerOnly (sg : Resource) (p : number) (peer : Output string) : Prop :=
  getField "ingress" (rargs sg)
  = Some (VArray [ VObject [ ("protocol", VString "tcp");
                             ("fromPort", VNumber p);
                             ("toPort", VNumber p);
                             ("securityGroups", VArray [VOutput peer]) ] ]).

Definition egressUnrestricted (sg : Resource) : Prop :=
  getField "egress" (rargs sg)
  = Some (VArray [ VObject [ ("protocol", VString "all");
                             ("fromPort", VNumber 0);
                             ("toPort", VNumber 0);
                             ("cidrBlocks", VArray [VString "0.0.0.0/0"]) ] ]).


(** ** Sample configurations *)

(** A stand-in for [JSON.stringify], to run the model on the samples. *)
Definition sampleStringify (v : value) : string := "<json>".

Definition sampleVpc : Output string := fun _ => "vpc-0a1b".

Definition sampleSubnets : list Subnet :=
  [ {| resource := {| id := fun _ => "subnet-1" |} |};
    {| resource := {| id := fun _ => "subnet-2" |} |} ].

(** [{ name: "nginx", image: "nginx:latest", port: 80 }] with the given zone,
    reservations and autoscaling. *)
Definition nginx (zone cpu memory : option string)
    (autoscaling : option AutoscalingConfig) : CreateServiceArgs :=
  {| serviceName := "nginx";
     image := "nginx:latest";
     port := 80;
     cpu := cpu;
     memory := memory;
     autoscaling := autoscaling;
     hostedZone := zone;
     vpcId := sampleVpc;
     region := "us-east-1";
     subnets := sampleSubnets;
     tags := Some [("team", "labs")] |}.

Definition nginxLoadBalancer (zone : option string) : CreateLoadBalancerArgs :=
  {| lb_serviceName := "nginx";
     lb_vpcId := sampleVpc;
     lb_subnets := sampleSubnets;
     lb_hostedZone := zone;
     lb_tags := None |}.

Definition nginxSecurityGroup : CreateSecurityGroupArgs :=
  {| sg_serviceName := "nginx";
     sg_port := 8080;
     sg_vpcId := sampleVpc;
     sg_lbSecurityGroupId := fun _ => "sg-0f00";
     sg_tags := None |}.

(** [autoscaling: { min: 1, max: 5, cpuAvgThreshold }] *)
Definition scaling (threshold : option number) : AutoscalingConfig :=
  {| min := 1; max := 5; cpuAvgThreshold := threshold |}.

(** Arguments a validator would be expected to turn down: an empty name, a
    malformed image, a port that is no TCP port, autoscaling bounds that are
    zero and negative. *)
Definition malformed : CreateServiceArgs :=
  {| serviceName := "";
     image := "::not an image::";
     port := -1;
     cpu := None;
     memory := None;
     autoscaling := Some {| min := 0; max := -3; cpuAvgThreshold := None |};
     hostedZone := None;
     vpcId := sampleVpc;
     region := "us-east-1";
     subnets := [];
     tags := None |}.

(** Two [Service] instances constructed one after the other in one program. *)
Definition twoServices (name1 : string) (args1 : CreateServiceArgs)
    (opts1 : option ResourceOptions) (name2 : string) (args2 : CreateServiceArgs)
    (opts2 : option ResourceOptions) : M (Service * Service) :=
  first <- Service_new name1 args1 opts1 ;;
  second <- Service_new name2 args2 opts2 ;;
  ret (first, second).

(** ** Further readings of a run *)

(** The resource types whose request is given the [tags] of the configuration. *)
Definition carriesTags (t : ResourceType) : bool :=
  match t with
  | Component_Service | Route53_Record | ACM_CertificateValidation
  | EC2_SecurityGroupRule | AppAutoscaling_Target | AppAutoscaling_Policy => false
  | _ => true
  end.

(** An optional value as the code's tests see it: a falsy one counts as absent. *)
Definition dropFalsy {A} `{ToBoolean A} (o : option A) : option A :=
  if toBoolean o then o else None.

(** The configuration with every falsy optional string or threshold left out. *)
Definition withoutFalsy (args : CreateServiceArgs) : CreateServiceArgs :=
  {| serviceName := serviceName args;
     image := image args;
     port := port args;
     cpu := dropFalsy (cpu args);
     memory := dropFalsy (memory args);
     autoscaling :=
       option_map (fun cfg => {| min := min cfg;
                                 max := max cfg;
                                 cpuAvgThreshold := dropFalsy (cpuAvgThreshold cfg) |})
                  (autoscaling args);
     hostedZone := dropFalsy (hostedZone args);
     vpcId := vpcId args;
     region := region args;
     subnets := subnets args;
     tags := tags args |}.

(** The options a request was made with. *)
Definition optionsOf (r : Resource) : ResourceOptions := spread (ropts r).

(** Options a caller might pass: another parent, a dependency, a flag. *)
Definition sampleOptions : option ResourceOptions :=
  Some {| parent := Some (mkURN Component_Service "platform");
          dependsOn := Some [mkURN ECS_Cluster "shared-cluster"];
          otherOptions := [("protect", VBool true)] |}.

(** ** Strings *)

Lemma prefix_append (s t : string) : prefix s (s ++ t) = true.
Proof.
  induction s as [|c s IH]; simpl.
  - destruct t; reflexivity.
  - destruct (Ascii.ascii_dec c c) as [_|ne]; [exact IH | now elim ne].
Qed.

Lemma prefix_refl (s : string) : prefix s s = true.
Proof.
  induction s as [|c s IH]; simpl; [reflexivity|].
  destruct (Ascii.ascii_dec c c) as [_|ne]; [exact IH | now elim ne].
Qed.

Lemma append_assoc (a b c : string) : (a ++ b) ++ c = a ++ b ++ c.
Proof. induction a as [|x a IH]; simpl; [reflexivity | now rewrite IH]. Qed.

Lemma stackName_twice (s : string) :
  stackName (stackName s) = s ++ "-" ++ stack ++ "-" ++ stack.
Proof. unfold stackName. now rewrite append_assoc. Qed.

Lemma toBoolean_nonempty (s : string) : s <> "" -> toBoolean (Some s) = true.
Proof. destruct s; [intros ne; now elim ne | reflexivity]. Qed.

(** ** Runs *)

Ltac run :=
  unfold requests, outcome, Service_new, createLoadBalancer, tlsBranch,
    attachAutoscaling, createSecurityGroup, validateServiceArgs;
  cbn.

(** A logical name is empty or starts with a character; in both cases every
    name built from it is known to be empty or not. *)
Ltac any_name n := destruct n as [|ch nm].

Ltac named n H := destruct n as [|ch nm]; [now elim H|].

Lemma createSecurityGroup_run this_name args opts st :
  createSecurityGroup this_name args opts st
  = (Ok (mkURN EC2_SecurityGroup (this_name ++ "-security-group")),
     (st ++ requests (createSecurityGroup this_name args opts))%list).
Proof. any_name this_name; reflexivity. Qed.

Lemma createLoadBalancer_run this_name args opts st :
  exists lb,
    createLoadBalancer this_name args opts st
    = (Ok lb, (st ++ requests (createLoadBalancer this_name args opts))%list).
Proof.
  any_name this_name;
    destruct args as [serviceName vpcId subnets [[|c zone]|] tags]; run;
    repeat rewrite <- app_assoc; eexists; reflexivity.
Qed.

Lemma Service_new_run name args opts st :
  name <> "" ->
  exists svc,
    Service_new name args opts st
    = (Ok svc, (st ++ requests (Service_new name args opts))%list).
Proof.
  intros Hn. named name Hn.
  destruct args as [serviceName image port cpu memory [cfg|] [[|c zone]|]
                     vpcId region subnets tags];
    run; repeat rewrite <- app_assoc; eexists; reflexivity.
Qed.

(** ** The load balancer *)

Lemma createLoadBalancer_tls this_name args opts :
  toBoolean (lb_hostedZone args) = true ->
  tlsIngress (requests (createLoadBalancer this_name args opts))
    (stackName (lb_serviceName args) ++ "." ++ template (lb_hostedZone args)).
Proof.
  destruct args as [serviceName vpcId subnets [[|c zone]|] tags];
    cbn; intros Hz; try discriminate Hz.
  unfold tlsIngress, listenerIs.
  any_name this_name; run; do 4 eexists;
    repeat split; try reflexivity; cbn; auto.
Qed.

Lemma createLoadBalancer_plain this_name args opts :
  toBoolean (lb_hostedZone args) = false ->
  plainIngress (requests (createLoadBalancer this_name args opts)).
Proof.
  destruct args as [serviceName vpcId subnets [[|c zone]|] tags];
    cbn; intros Hz; try discriminate Hz;
    unfold plainIngress, listenerIs; any_name this_name; run; do 2 eexists;
    repeat split; reflexivity.
Qed.

(** C1 (as amended): when [hostedZone] is set to a non-empty string, the
    load-balancer builder requests one listener on port 443 with protocol
    HTTPS and a certificate for the domain [<stack-qualified name>.<zone>],
    and the listener explicitly depends on the target group and on the
    certificate validation. *)
Theorem tls_ingress_when_zone_nonempty this_name args opts zone :
  lb_hostedZone args = Some zone ->
  zone <> "" ->
  tlsIngress (requests (createLoadBalancer this_name args opts))
    (stackName (lb_serviceName args) ++ "." ++ zone).
Proof.
  intros Hz Hne.
  change zone with (template (Some zone)). rewrite <- Hz.
  apply createLoadBalancer_tls.
  rewrite Hz. now apply toBoolean_nonempty.
Qed.

(** C2: when [hostedZone] is unset, the load-balancer builder requests one
    listener on port 80 with protocol HTTP, no certificate, no DNS record and
    no certificate validation, and the listener's explicit dependencies are
    the target group alone. *)
Theorem plain_ingress_when_zone_unset this_name args opts :
  lb_hostedZone args = None ->
  plainIngress (requests (createLoadBalancer this_name args opts)).
Proof.
  intros Hz. apply createLoadBalancer_plain. now rewrite Hz.
Qed.

(** ** The url *)

Lemma Service_new_url name args opts st :
  name <> "" ->
  exists svc,
    outcome (Service_new name args opts) st = Ok svc /\
    (toBoolean (hostedZone args) = true ->
     httpsUrl svc (stackName (serviceName args) ++ "." ++ template (hostedZone args))) /\
    (toBoolean (hostedZone args) = false ->
     httpUrlOfLoadBalancer svc (requests (Service_new name args opts))).
Proof.
  intros Hn. named name Hn.
  destruct args as [serviceName image port cpu memory [cfg|] [[|c zone]|]
                     vpcId region subnets tags];
    run; eexists; (split; [reflexivity|]); split; intros Hz;
    try discriminate Hz; try reflexivity;
    unfold httpUrlOfLoadBalancer; do 2 eexists;
    (split; [reflexivity|]); (split; [reflexivity|]); intros e; reflexivity.
Qed.

(** C3 (as amended): for a component with a non-empty unique name the
    construction succeeds, and the url is the string
    [https://<stack-qualified name>.<zone>] when [hostedZone] is set to a
    non-empty string; when [hostedZone] is unset or empty it is [http://]
    followed by the DNS name of the load balancer. *)
Theorem url_follows_zone name args opts st :
  name <> "" ->
  exists svc,
    outcome (Service_new name args opts) st = Ok svc /\
    (forall zone, hostedZone args = Some zone -> zone <> "" ->
       httpsUrl svc (stackName (serviceName args) ++ "." ++ zone)) /\
    (hostedZone args = None \/ hostedZone args = Some "" ->
       httpUrlOfLoadBalancer svc (requests (Service_new name args opts))).
Proof.
  intros Hn.
  destruct (Service_new_url name args opts st Hn) as (svc & Hrun & Hs & Hp).
  exists svc. split; [exact Hrun|]. split.
  - intros zone Hz Hne. rewrite Hz in Hs. apply Hs. now apply toBoolean_nonempty.
  - intros [Hz|Hz]; apply Hp; rewrite Hz; reflexivity.
Qed.

(** ** Autoscaling *)

Lemma Service_new_scaling name args opts cfg :
  name <> "" ->
  autoscaling args = Some cfg ->
  scalingResources (requests (Service_new name args opts)) cfg
    (or_else (cpuAvgThreshold cfg) 75).
Proof.
  intros Hn. named name Hn.
  destruct args as [serviceName image port cpu memory [cfg'|] [[|c zone]|]
                     vpcId region subnets tags];
    cbn; intros Hc; try discriminate Hc; injection Hc as ->;
    unfold scalingResources; run; do 3 eexists;
    repeat split; reflexivity.
Qed.

Lemma Service_new_unscaled name args opts :
  autoscaling args = None ->
  noScalingResources (requests (Service_new name args opts)).
Proof.
  any_name name;
  destruct args as [serviceName image port cpu memory [cfg'|] [[|c zone]|]
                     vpcId region subnets tags];
    cbn; intros Hc; try discriminate Hc;
    unfold noScalingResources; run; split; reflexivity.
Qed.

(** [cpuAvgThreshold || 75] *)
Lemma threshold_or_default (t : option number) :
  or_else t 75 =
  match t with
  | Some v => if is_zero v || is_nan v then 75 else v
  | None => 75
  end.
Proof.
  destruct t as [v|]; [|reflexivity].
  unfold or_else, toBoolean, ToBoolean_number.
  now destruct (is_zero v || is_nan v).
Qed.

(** C4 (as amended): for a component with a non-empty unique name: with
    [autoscaling] present there is exactly one scaling target, bounded by [min] and [max], and exactly one target-tracking
    policy; its target value is [cpuAvgThreshold] when that is given and is
    neither zero nor NaN, and 75 when it is omitted, zero or NaN.  With
    [autoscaling] absent there is no scaling target and no scaling policy. *)
Theorem autoscaling_attachment name args opts :
  name <> "" ->
  (forall cfg t, autoscaling args = Some cfg -> cpuAvgThreshold cfg = Some t ->
     is_zero t = false -> is_nan t = false ->
     scalingResources (requests (Service_new name args opts)) cfg t) /\
  (forall cfg, autoscaling args = Some cfg -> cpuAvgThreshold cfg = None ->
     scalingResources (requests (Service_new name args opts)) cfg 75) /\
  (forall cfg t, autoscaling args = Some cfg -> cpuAvgThreshold cfg = Some t ->
     is_zero t = true \/ is_nan t = true ->
     scalingResources (requests (Service_new name args opts)) cfg 75) /\
  (autoscaling args = None ->
     noScalingResources (requests (Service_new name args opts))).
Proof.
  intros Hname. split; [|split; [|split]].
  - intros cfg t Hc Ht Hz Hn.
    pose proof (Service_new_scaling name args opts cfg Hname Hc) as H.
    rewrite threshold_or_default, Ht, Hz, Hn in H. exact H.
  - intros cfg Hc Ht.
    pose proof (Service_new_scaling name args opts cfg Hname Hc) as H.
    rewrite threshold_or_default, Ht in H. exact H.
  - intros cfg t Hc Ht Hf.
    pose proof (Service_new_scaling name args opts cfg Hname Hc) as H.
    rewrite threshold_or_default, Ht in H.
    destruct Hf as [Hf|Hf]; rewrite Hf in H;
      [|rewrite orb_true_r in H]; exact H.
  - apply Service_new_unscaled.
Qed.

(** ** The task definition *)

Lemma Service_new_reservations name args opts :
  name <> "" ->
  taskDefinitionHas (requests (Service_new name args opts)) "cpu"
    (or_else (cpu args) "256") /\
  taskDefinitionHas (requests (Service_new name args opts)) "memory"
    (or_else (memory args) "512").
Proof.
  intros Hn. named name Hn.
  destruct args as [serviceName image port cpu memory [cfg'|] [[|c zone]|]
                     vpcId region subnets tags];
    unfold taskDefinitionHas; run; split; eexists; split; reflexivity.
Qed.

Lemma nonempty_or_else (s d : string) : s <> "" -> or_else (Some s) d = s.
Proof. destruct s; [intros ne; now elim ne | reflexivity]. Qed.

(** C5 (as amended): for a component with a non-empty unique name, the task
    definition's [cpu] is "256" when [cpu] is
    omitted and its [memory] is "512" when [memory] is omitted; a [cpu] or
    [memory] set to a non-empty string is passed on unchanged; one set to the
    empty string gives the default. *)
Theorem reservations_default_and_pass_through name args opts :
  name <> "" ->
  (cpu args = None ->
     taskDefinitionHas (requests (Service_new name args opts)) "cpu" "256") /\
  (memory args = None ->
     taskDefinitionHas (requests (Service_new name args opts)) "memory" "512") /\
  (forall c, cpu args = Some c -> c <> "" ->
     taskDefinitionHas (requests (Service_new name args opts)) "cpu" c) /\
  (forall m, memory args = Some m -> m <> "" ->
     taskDefinitionHas (requests (Service_new name args opts)) "memory" m) /\
  (cpu args = Some "" ->
     taskDefinitionHas (requests (Service_new name args opts)) "cpu" "256") /\
  (memory args = Some "" ->
     taskDefinitionHas (requests (Service_new name args opts)) "memory" "512").
Proof.
  intros Hn.
  destruct (Service_new_reservations name args opts Hn) as [Hc Hm].
  split; [|split; [|split; [|split; [|split]]]].
  - intros E. now rewrite E in Hc.
  - intros E. now rewrite E in Hm.
  - intros c E ne. rewrite E, nonempty_or_else in Hc; assumption.
  - intros m E ne. rewrite E, nonempty_or_else in Hm; assumption.
  - intros E. now rewrite E in Hc.
  - intros E. now rewrite E in Hm.
Qed.


(** ** The security group *)

(** C7: the security group builder requests one security group, whose
    inbound rules are the single rule admitting TCP on the given port from the
    given peer security group, and whose outbound rules admit every protocol
    to 0.0.0.0/0. *)
Theorem security_group_rules this_name args opts st :
  exists sg,
    requests (createSecurityGroup this_name args opts) = [sg] /\
    createSecurityGroup this_name args opts st = (Ok (urnOf sg), (st ++ [sg])%list) /\
    rtype sg = EC2_SecurityGroup /\
    getField "vpcId" (rargs sg) = Some (VOutput (sg_vpcId args)) /\
    ingressFromPeerOnly sg (sg_port args) (sg_lbSecurityGroupId args) /\
    egressUnrestricted sg.
Proof.
  any_name this_name; eexists; (split; [reflexivity|]); repeat split.
Qed.

(** ** Validation *)

(** C8: the argument validator checks nothing and never rejects: it returns
    normally on every argument value and leaves the registry untouched; and
    for a component with a non-empty unique name (the only thing the base
    constructor refuses, before the validator is reached) the constructor
    goes on, whatever the argument value, to issue all its requests: twelve,
    four more for a truthy [hostedZone], two more for [autoscaling]. *)
Theorem validator_never_rejects name args opts st :
  validateServiceArgs args st = (Ok tt, st) /\
  (name <> "" ->
   exists svc,
     Service_new name args opts st
     = (Ok svc, (st ++ requests (Service_new name args opts))%list) /\
     length (requests (Service_new name args opts))
     = (12 + (if toBoolean (hostedZone args) then 4 else 0)
           + (match autoscaling args with Some _ => 2 | None => 0 end))%nat).
Proof.
  split; [reflexivity|]. intros Hn.
  destruct (Service_new_run name args opts st Hn) as (svc & Hrun).
  exists svc. split; [exact Hrun|].
  named name Hn.
  destruct args as [serviceName image port cpu memory [cfg'|] [[|c zone]|]
                     vpcId region subnets tags];
    reflexivity.
Qed.

(** ** Names *)

(** C9: for a component with a non-empty unique name, the external name of
    the service's security group is
    [ecs-<serviceName>-<stack>-<stack>] (it is the second of the two security
    groups, the one the ECS service runs in): the constructor hands the builder a
    name that is already stack-qualified, and the builder qualifies it again. *)
Theorem service_security_group_name_qualified_twice name args opts :
  name <> "" ->
  exists albSg sg ecsService network,
    resourcesOfType EC2_SecurityGroup (requests (Service_new name args opts))
      = [albSg; sg] /\
    rname sg = name ++ "-security-group" /\
    getField "name" (rargs sg)
      = Some (VString ("ecs-" ++ serviceName args ++ "-" ++ stack ++ "-" ++ stack)) /\
    resourcesOfType ECS_Service (requests (Service_new name args opts)) = [ecsService] /\
    getField "networkConfiguration" (rargs ecsService) = Some (VObject network) /\
    getField "securityGroups" network = Some (VArray [VOutput (attr (urnOf sg) "id")]).
Proof.
  intros Hn. rewrite <- stackName_twice. named name Hn.
  destruct args as [serviceName image port cpu memory [cfg'|] [[|c zone]|]
                     vpcId region subnets tags];
    run; do 4 eexists; repeat split; reflexivity.
Qed.

Lemma Service_new_listener name args opts :
  name <> "" ->
  exists listener,
    resourcesOfType LB_Listener (requests (Service_new name args opts)) = [listener] /\
    urnOf listener = mkURN LB_Listener "listener".
Proof.
  intros Hn. named name Hn.
  destruct args as [serviceName image port cpu memory [cfg'|] [[|c zone]|]
                     vpcId region subnets tags];
    run; eexists; split; reflexivity.
Qed.

Lemma prefix_cons_append (ch : Ascii.ascii) (nm t : string) :
  prefix (String ch nm) (String ch (nm ++ t)) = true.
Proof. exact (prefix_append (String ch nm) t). Qed.

Ltac each_request H Hne r :=
  repeat (destruct H as [H|H];
          [subst r; first [ apply prefix_cons_append | apply prefix_refl
                          | exfalso; apply Hne; reflexivity ]|]);
  contradiction H.

Lemma Service_new_names name args opts r :
  In r (requests (Service_new name args opts)) ->
  rtype r <> LB_Listener ->
  prefix name (rname r) = true.
Proof.
  any_name name;
  destruct args as [serviceName image port cpu memory [cfg'|] [[|c zone]|]
                     vpcId region subnets tags];
    run; intros H Hne; each_request H Hne r.
Qed.

Lemma twoServices_run name1 args1 opts1 name2 args2 opts2 st :
  name1 <> "" ->
  name2 <> "" ->
  exists s1 s2,
    twoServices name1 args1 opts1 name2 args2 opts2 st
    = (Ok (s1, s2),
       (st ++ requests (Service_new name1 args1 opts1)
           ++ requests (Service_new name2 args2 opts2))%list).
Proof.
  intros Hn1 Hn2.
  destruct (Service_new_run name1 args1 opts1 st Hn1) as (s1 & H1).
  destruct (Service_new_run name2 args2 opts2
              (st ++ requests (Service_new name1 args1 opts1))%list Hn2) as (s2 & H2).
  exists s1, s2. unfold twoServices, bind.
  rewrite H1, H2. unfold ret. now rewrite <- app_assoc.
Qed.

(** C10: the listener is requested under the fixed logical name "listener",
    whatever the component's (non-empty) unique name, while the logical name
    of every other request starts with the component's name; so two
    [Service] instances constructed in one program, each under a non-empty
    name, request two listeners with the same logical name (and type). *)
Theorem listener_name_is_fixed name args opts :
  name <> "" ->
  (exists listener,
     resourcesOfType LB_Listener (requests (Service_new name args opts)) = [listener] /\
     rname listener = "listener") /\
  (forall r, In r (requests (Service_new name args opts)) ->
     rtype r <> LB_Listener -> prefix name (rname r) = true) /\
  (forall name2 args2 opts2 st,
     name2 <> "" ->
     exists s1 s2 l1 l2,
       twoServices name args opts name2 args2 opts2 st
       = (Ok (s1, s2),
          (st ++ requests (Service_new name args opts)
              ++ requests (Service_new name2 args2 opts2))%list) /\
       resourcesOfType LB_Listener (requests (Service_new name args opts)) = [l1] /\
       resourcesOfType LB_Listener (requests (Service_new name2 args2 opts2)) = [l2] /\
       rname l1 = rname l2 /\
       urnOf l1 = urnOf l2).
Proof.
  intros Hn. split; [|split].
  - destruct (Service_new_listener name args opts Hn) as (l & Hl & Hu).
    exists l. split; [exact Hl|]. now injection Hu.
  - intros r. apply Service_new_names.
  - intros name2 args2 opts2 st Hn2.
    destruct (twoServices_run name args opts name2 args2 opts2 st Hn Hn2)
      as (s1 & s2 & Hrun).
    destruct (Service_new_listener name args opts Hn) as (l1 & Hl1 & Hu1).
    destruct (Service_new_listener name2 args2 opts2 Hn2) as (l2 & Hl2 & Hu2).
    exists s1, s2, l1, l2. repeat split; try assumption.
    + injection Hu1 as _ ->. now injection Hu2.
    + now rewrite Hu1, Hu2.
Qed.


(** ** Further properties of the constructor *)

Lemma append_inv_head (s a b : string) : s ++ a = s ++ b -> a = b.
Proof.
  induction s as [|c s IH]; simpl; intros H; [exact H|].
  injection H as H. now apply IH.
Qed.

Lemma length_append (a b : string) :
  String.length (a ++ b) = (String.length a + String.length b)%nat.
Proof. induction a as [|c a IH]; simpl; [reflexivity | now rewrite IH]. Qed.

Lemma append_inv_tail (a b s : string) : a ++ s = b ++ s -> a = b.
Proof.
  revert b. induction a as [|c a IH]; intros [|d b] H; simpl in H.
  - reflexivity.
  - apply (f_equal String.length) in H. simpl in H.
    rewrite length_append in H. lia.
  - apply (f_equal String.length) in H. simpl in H.
    rewrite length_append in H. lia.
  - injection H as -> H. f_equal. now apply IH.
Qed.

(** X13: within one stack the naming helper is injective (distinct names get
    distinct stack-qualified names), and it adds the separator and the stack
    identifier to the length. *)
Theorem stackName_injective (a b : string) :
  (stackName a = stackName b <-> a = b) /\
  String.length (stackName a) = (String.length a + 1 + String.length stack)%nat.
Proof.
  split; [split|].
  - unfold stackName. apply append_inv_tail.
  - now intros ->.
  - unfold stackName. rewrite length_append. simpl. lia.
Qed.

Ltac pick := repeat (first [ left; reflexivity | right ]).

Ltac cases args :=
  destruct args as [serviceName image port cpu memory [cfg|] [[|c zone]|]
                     vpcId region subnets tags].

(** X1: every request the constructor issues, apart from the component
    itself, names the component as its parent, whatever options the caller
    passed (a parent in the caller's options is overridden). *)
Theorem children_parent_is_component name args opts r :
  In r (requests (Service_new name args opts)) ->
  rtype r <> Component_Service ->
  parent (optionsOf r) = Some (mkURN Component_Service name).
Proof.
  any_name name; cases args; run; intros H Hne;
    repeat (destruct H as [H|H];
            [subst r; first [ reflexivity | exfalso; apply Hne; reflexivity ]|]);
    contradiction H.
Qed.

(** X2: the caller's other options reach every child request unchanged, and
    so does the caller's [dependsOn], except on the listener and on the
    certificate validation, where it is replaced by dependencies on requests
    of this same construction. *)
Theorem options_pass_through name args opts r :
  In r (requests (Service_new name args opts)) ->
  rtype r <> Component_Service ->
  otherOptions (optionsOf r) = otherOptions (spread opts) /\
  (rtype r <> LB_Listener -> rtype r <> ACM_CertificateValidation ->
     dependsOn (optionsOf r) = dependsOn (spread opts)) /\
  (rtype r = LB_Listener \/ rtype r = ACM_CertificateValidation ->
     exists deps,
       dependsOn (optionsOf r) = Some deps /\
       incl deps (map urnOf (requests (Service_new name args opts)))).
Proof.
  any_name name; cases args; run; intros H Hne;
    repeat (destruct H as [H|H];
            [subst r; first
               [ exfalso; apply Hne; reflexivity
               | split; [reflexivity|]; split;
                 [ intros Hl Hv;
                   first [ reflexivity
                         | exfalso; apply Hl; reflexivity
                         | exfalso; apply Hv; reflexivity ]
                 | intros [Hl|Hl]; cbn in Hl;
                   first [ discriminate Hl
                         | eexists; split; [reflexivity|];
                           intros d Hd; cbn in Hd |- *;
                           repeat (destruct Hd as [Hd|Hd]; [subst d; pick|]);
                           contradiction Hd ] ] ]|]);
    contradiction H.
Qed.

(** X8: for a component with a non-empty unique name the constructor issues
    exactly twelve requests, four more when [hostedZone] is truthy and two
    more when [autoscaling] is present. *)
Theorem request_count name args opts :
  name <> "" ->
  length (requests (Service_new name args opts))
  = (12 + (if toBoolean (hostedZone args) then 4 else 0)
        + (match autoscaling args with Some _ => 2 | None => 0 end))%nat.
Proof. intros Hn. named name Hn. cases args; reflexivity. Qed.

(** X7: seen from the constructor of a component with a non-empty unique
    name, the ingress follows the zone: the TLS
    topology for the domain [<stack-qualified name>.<zone>] when [hostedZone]
    is a non-empty string, the plain one when it is unset or empty. *)
Theorem constructor_ingress_follows_zone name args opts :
  name <> "" ->
  (forall zone, hostedZone args = Some zone -> zone <> "" ->
     tlsIngress (requests (Service_new name args opts))
       (stackName (serviceName args) ++ "." ++ zone)) /\
  (hostedZone args = None \/ hostedZone args = Some "" ->
     plainIngress (requests (Service_new name args opts))).
Proof.
  intros Hn. named name Hn. split.
  - intros z Hz Hne. destruct z as [|a z]; [now elim Hne|].
    cases args; cbn in Hz; try discriminate Hz; injection Hz as -> ->;
      unfold tlsIngress, listenerIs; run; do 4 eexists;
      repeat split; try reflexivity; cbn; auto.
  - intros Hz.
    cases args; cbn in Hz; destruct Hz as [Hz|Hz]; try discriminate Hz;
      unfold plainIngress, listenerIs; run; do 2 eexists;
      repeat split; reflexivity.
Qed.

(** X3: the load balancer's security group admits TCP from anywhere on
    exactly the port the listener listens on and declares no outbound rule of
    its own; the load balancer is internet-facing and sits in that group. *)
Theorem alb_security_group_matches_listener this_name args opts :
  exists sg alb listener exposedPort,
    resourcesOfType EC2_SecurityGroup
      (requests (createLoadBalancer this_name args opts)) = [sg] /\
    resourcesOfType LB_LoadBalancer
      (requests (createLoadBalancer this_name args opts)) = [alb] /\
    resourcesOfType LB_Listener
      (requests (createLoadBalancer this_name args opts)) = [listener] /\
    getField "port" (rargs listener) = Some (VNumber exposedPort) /\
    getField "ingress" (rargs sg)
      = Some (VArray [ VObject [ ("protocol", VString "tcp");
                                 ("fromPort", VNumber exposedPort);
                                 ("toPort", VNumber exposedPort);
                                 ("cidrBlocks", VArray [VString "0.0.0.0/0"]) ] ]) /\
    getField "egress" (rargs sg) = None /\
    getField "internal" (rargs alb) = Some (VBool false) /\
    getField "securityGroups" (rargs alb)
      = Some (VArray [VOutput (attr (urnOf sg) "id")]).
Proof.
  any_name this_name;
    destruct args as [serviceName vpcId subnets [[|c zone]|] tags];
    run; do 4 eexists; repeat split; reflexivity.
Qed.

(** X4: for a component with a non-empty unique name the traffic path is
    consistent: the listener belongs to the load
    balancer and forwards to the target group; the ECS service registers in
    that same target group the container whose name is the one the task
    definition declares, on the configured port. *)
Theorem traffic_path_is_consistent name args opts :
  name <> "" ->
  exists alb targetGroup listener ecsService td container containerName,
    resourcesOfType LB_LoadBalancer (requests (Service_new name args opts)) = [alb] /\
    resourcesOfType LB_TargetGroup (requests (Service_new name args opts))
      = [targetGroup] /\
    resourcesOfType LB_Listener (requests (Service_new name args opts)) = [listener] /\
    resourcesOfType ECS_Service (requests (Service_new name args opts)) = [ecsService] /\
    resourcesOfType ECS_TaskDefinition (requests (Service_new name args opts)) = [td] /\
    getField "loadBalancerArn" (rargs listener)
      = Some (VOutput (attr (urnOf alb) "arn")) /\
    getField "defaultActions" (rargs listener)
      = Some (VArray [ VObject [ ("type", VString "forward");
                                 ("targetGroupArn",
                                  VOutput (attr (urnOf targetGroup) "arn")) ] ]) /\
    getField "targetType" (rargs targetGroup) = Some (VString "ip") /\
    getField "loadBalancers" (rargs ecsService)
      = Some (VArray [ VObject [ ("targetGroupArn",
                                  VOutput (attr (urnOf targetGroup) "arn"));
                                 ("containerName", VString containerName);
                                 ("containerPort", VNumber (port args)) ] ]) /\
    getField "containerDefinitions" (rargs td)
      = Some (VString (JSON_stringify (VArray [VObject container]))) /\
    getField "name" container = Some (VString containerName).
Proof.
  intros Hn. named name Hn.
  cases args; run; do 7 eexists; repeat split; reflexivity.
Qed.

(** X5: for a component with a non-empty unique name the two security
    groups are paired on the configured port: the
    service's group admits TCP on it from the load balancer's group only, and
    the separate egress rule opens the load balancer's group on that same
    port towards the service's group. *)
Theorem egress_rule_pairs_security_groups name args opts :
  name <> "" ->
  exists albSg sg rule,
    resourcesOfType EC2_SecurityGroup (requests (Service_new name args opts))
      = [albSg; sg] /\
    resourcesOfType EC2_SecurityGroupRule (requests (Service_new name args opts))
      = [rule] /\
    ingressFromPeerOnly sg (port args) (attr (urnOf albSg) "id") /\
    egressUnrestricted sg /\
    rargs rule
      = [ ("protocol", VString "tcp");
          ("type", VString "egress");
          ("fromPort", VNumber (port args));
          ("toPort", VNumber (port args));
          ("securityGroupId", VOutput (attr (urnOf albSg) "id"));
          ("sourceSecurityGroupId", VOutput (attr (urnOf sg) "id")) ].
Proof.
  intros Hn. named name Hn.
  cases args; run; do 3 eexists; repeat split; reflexivity.
Qed.

(** X6: in the TLS branch the alias record carries the certificate's domain
    and points at the load balancer, both records live in the zone looked up
    under [hostedZone], the validation record is the CNAME the certificate
    asks for, the certificate validation waits for exactly that record, and
    the listener serves the certificate. *)
Theorem tls_branch_wiring this_name args opts zone :
  lb_hostedZone args = Some zone ->
  zone <> "" ->
  exists alb cert aliasRecord validationRecord validation listener,
    resourcesOfType LB_LoadBalancer
      (requests (createLoadBalancer this_name args opts)) = [alb] /\
    resourcesOfType ACM_Certificate
      (requests (createLoadBalancer this_name args opts)) = [cert] /\
    resourcesOfType Route53_Record
      (requests (createLoadBalancer this_name args opts))
      = [aliasRecord; validationRecord] /\
    resourcesOfType ACM_CertificateValidation
      (requests (createLoadBalancer this_name args opts)) = [validation] /\
    resourcesOfType LB_Listener
      (requests (createLoadBalancer this_name args opts)) = [listener] /\
    rargs aliasRecord
      = [ ("name", VString (stackName (lb_serviceName args) ++ "." ++ zone));
          ("type", VString "A");
          ("zoneId", VOutput (getZone_zoneId zone));
          ("aliases", VArray [
             VObject [ ("name", VOutput (attr (urnOf alb) "dnsName"));
                       ("zoneId", VOutput (attr (urnOf alb) "zoneId"));
                       ("evaluateTargetHealth", VBool true) ] ]) ] /\
    getField "domainName" (rargs cert)
      = Some (VString (stackName (lb_serviceName args) ++ "." ++ zone)) /\
    getField "validationMethod" (rargs cert) = Some (VString "DNS") /\
    rargs validationRecord
      = [ ("name", VOutput (attr (urnOf cert)
                              "domainValidationOptions[0].resourceRecordName"));
          ("type", VString "CNAME");
          ("zoneId", VOutput (getZone_zoneId zone));
          ("records", VArray [VOutput (attr (urnOf cert)
                                "domainValidationOptions[0].resourceRecordValue")]);
          ("ttl", VNumber 300) ] /\
    getField "certificateArn" (rargs validation)
      = Some (VOutput (attr (urnOf cert) "arn")) /\
    explicitDependencies validation = [urnOf validationRecord] /\
    getField "certificateArn" (rargs listener)
      = Some (VOutput (attr (urnOf cert) "arn")).
Proof.
  intros Hz Hne. destruct zone as [|c z]; [now elim Hne|].
  destruct args as [serviceName vpcId subnets hz tags]; cbn in Hz; subst hz.
  any_name this_name; run; do 6 eexists; repeat split; reflexivity.
Qed.

(** X18: without a truthy [hostedZone] the listener is given no certificate. *)
Theorem plain_listener_has_no_certificate this_name args opts :
  lb_hostedZone args = None \/ lb_hostedZone args = Some "" ->
  exists listener,
    resourcesOfType LB_Listener
      (requests (createLoadBalancer this_name args opts)) = [listener] /\
    getField "certificateArn" (rargs listener) = None.
Proof.
  destruct args as [serviceName vpcId subnets hz tags]; cbn.
  intros [->| ->]; any_name this_name; run; eexists; split; reflexivity.
Qed.

Ltac distinct_urn H :=
  first [ discriminate H
        | injection H as H; apply append_inv_head in H; discriminate H ].

(** X9: within one construction no two requests share both type and logical
    name, whatever the component's name. *)
Theorem urns_distinct_within_instance name args opts :
  NoDup (map urnOf (requests (Service_new name args opts))).
Proof.
  any_name name; cases args; run;
    repeat (constructor;
            [ cbn; intros H;
              repeat (destruct H as [H|H]; [distinct_urn H|]);
              contradiction H | ]);
    constructor.
Qed.

(** X10: the tags of the configuration reach, unchanged, the request of every
    resource of a taggable type, and no other request has a [tags] property. *)
Theorem tags_on_taggable_requests name args opts r :
  In r (requests (Service_new name args opts)) ->
  getField "tags" (rargs r)
  = if carriesTags (rtype r) then Some (tagsValue (tags args)) else None.
Proof.
  any_name name; cases args; run; intros H;
    repeat (destruct H as [H|H]; [subst r; reflexivity|]);
    contradiction H.
Qed.

(** X11: for a component with a non-empty unique name, the task-execution
    policy allows creating log groups and log
    streams, and nothing else, on exactly the log group the container logs
    to, in the region the container logs in, under the caller's account. *)
Theorem policy_covers_container_log_group name args opts :
  name <> "" ->
  exists policy td deferred container logConfiguration options logGroup,
    resourcesOfType IAM_Policy (requests (Service_new name args opts)) = [policy] /\
    resourcesOfType ECS_TaskDefinition (requests (Service_new name args opts)) = [td] /\
    getField "containerDefinitions" (rargs td)
      = Some (VString (JSON_stringify (VArray [VObject container]))) /\
    getField "logConfiguration" container = Some (VObject logConfiguration) /\
    getField "logDriver" logConfiguration = Some (VString "awslogs") /\
    getField "options" logConfiguration = Some (VObject options) /\
    getField "awslogs-group" options = Some (VString logGroup) /\
    getField "awslogs-region" options = Some (VString (region args)) /\
    getField "awslogs-create-group" options = Some (VString "true") /\
    getField "policy" (rargs policy) = Some (VOutput deferred) /\
    forall e,
      deferred e
      = JSON_stringify
          (VObject [
             ("Statement", VArray [
                VObject [
                  ("Action", VArray [ VString "logs:CreateLogGroup";
                                      VString "logs:CreateLogStream" ]);
                  ("Resource", VArray [
                     VString ("arn:aws:logs:" ++ region args ++ ":" ++ accountId e
                              ++ ":log-group:" ++ logGroup);
                     VString ("arn:aws:logs:" ++ region args ++ ":" ++ accountId e
                              ++ ":log-group:" ++ logGroup ++ ":log-stream:*") ]);
                  ("Effect", VString "Allow") ] ]);
             ("Version", VString "2012-10-17") ]).
Proof.
  intros Hn. named name Hn.
  cases args; run; do 7 eexists; repeat split; reflexivity.
Qed.

(** X12: for a component with a non-empty unique name the compute chain is
    closed: the ECS service runs in the cluster of
    the construction, on Fargate, the task definition of the construction;
    that task definition executes under the role of the construction, whose
    only managed policy is the task-execution policy and which only ECS tasks
    may assume. *)
Theorem execution_chain name args opts :
  name <> "" ->
  exists cluster policy role td ecsService,
    resourcesOfType ECS_Cluster (requests (Service_new name args opts)) = [cluster] /\
    resourcesOfType IAM_Policy (requests (Service_new name args opts)) = [policy] /\
    resourcesOfType IAM_Role (requests (Service_new name args opts)) = [role] /\
    resourcesOfType ECS_TaskDefinition (requests (Service_new name args opts)) = [td] /\
    resourcesOfType ECS_Service (requests (Service_new name args opts)) = [ecsService] /\
    getField "name" (rargs cluster) = Some (VString (stackName (serviceName args))) /\
    getField "cluster" (rargs ecsService) = Some (VOutput (attr (urnOf cluster) "id")) /\
    getField "launchType" (rargs ecsService) = Some (VString "FARGATE") /\
    getField "waitForSteadyState" (rargs ecsService) = Some (VBool false) /\
    getField "taskDefinition" (rargs ecsService)
      = Some (VOutput (attr (urnOf td) "arn")) /\
    getField "networkMode" (rargs td) = Some (VString "awsvpc") /\
    getField "requiresCompatibilities" (rargs td) = Some (VArray [VString "FARGATE"]) /\
    getField "executionRoleArn" (rargs td) = Some (VOutput (attr (urnOf role) "arn")) /\
    getField "managedPolicyArns" (rargs role)
      = Some (VArray [VOutput (attr (urnOf policy) "arn")]) /\
    getField "assumeRolePolicy" (rargs role)
      = Some (VString (JSON_stringify
          (VObject [
             ("Statement", VArray [
                VObject [
                  ("Action", VArray [VString "sts:AssumeRole"]);
                  ("Principal",
                   VObject [("Service", VString "ecs-tasks.amazonaws.com")]);
                  ("Effect", VString "Allow") ] ]);
             ("Version", VString "2012-10-17") ]))).
Proof.
  intros Hn. named name Hn.
  cases args; run; do 5 eexists; repeat split; reflexivity.
Qed.

(** X14: for a component with a non-empty unique name, the load balancer
    and the ECS service are placed in the same
    subnets: the ids of the given subnets, one per subnet and in the given
    order (none when the list is empty); the service's tasks get a public
    address and run in the service's security group only. *)
Theorem same_subnets name args opts :
  name <> "" ->
  exists alb ecsService network albSg sg,
    resourcesOfType LB_LoadBalancer (requests (Service_new name args opts)) = [alb] /\
    resourcesOfType ECS_Service (requests (Service_new name args opts)) = [ecsService] /\
    resourcesOfType EC2_SecurityGroup (requests (Service_new name args opts))
      = [albSg; sg] /\
    getField "subnets" (rargs alb)
      = Some (VArray (map (fun s => VOutput (id (resource s))) (subnets args))) /\
    getField "networkConfiguration" (rargs ecsService) = Some (VObject network) /\
    network
      = [ ("assignPublicIp", VBool true);
          ("subnets", VArray (map (fun s => VOutput (id (resource s))) (subnets args)));
          ("securityGroups", VArray [VOutput (attr (urnOf sg) "id")]) ].
Proof.
  intros Hn. named name Hn.
  cases args; run; do 5 eexists; repeat split; reflexivity.
Qed.

(** X15: for a component with a non-empty unique name and with
    [autoscaling] present, the scaling policy is attached to the scaling
    target: both name the
    resource [service/<cluster name>/<service name>] of the cluster and the
    ECS service of the construction, the desired-count dimension and the ECS
    namespace, and the policy tracks the average CPU utilisation. *)
Theorem scaling_policy_targets_scaling_target name args opts bounds :
  name <> "" ->
  autoscaling args = Some bounds ->
  exists cluster ecsService scalingTarget policy resourceId tracking metric,
    resourcesOfType ECS_Cluster (requests (Service_new name args opts)) = [cluster] /\
    resourcesOfType ECS_Service (requests (Service_new name args opts)) = [ecsService] /\
    resourcesOfType AppAutoscaling_Target (requests (Service_new name args opts))
      = [scalingTarget] /\
    resourcesOfType AppAutoscaling_Policy (requests (Service_new name args opts))
      = [policy] /\
    getField "resourceId" (rargs scalingTarget) = Some (VOutput resourceId) /\
    getField "resourceId" (rargs policy) = Some (VOutput resourceId) /\
    (forall e, resourceId e
               = "service/" ++ attribute e (urnOf cluster) "name"
                 ++ "/" ++ attribute e (urnOf ecsService) "name") /\
    getField "scalableDimension" (rargs scalingTarget)
      = Some (VString "ecs:service:DesiredCount") /\
    getField "scalableDimension" (rargs policy)
      = Some (VString "ecs:service:DesiredCount") /\
    getField "serviceNamespace" (rargs scalingTarget) = Some (VString "ecs") /\
    getField "serviceNamespace" (rargs policy) = Some (VString "ecs") /\
    getField "targetTrackingScalingPolicyConfiguration" (rargs policy)
      = Some (VObject tracking) /\
    getField "predefinedMetricSpecification" tracking = Some (VObject metric) /\
    getField "predefinedMetricType" metric
      = Some (VString "ECSServiceAverageCPUUtilization").
Proof.
  intros Hn. named name Hn.
  cases args; cbn; intros Hc; try discriminate Hc;
    run; do 7 eexists; repeat split; reflexivity.
Qed.

(** X16: a falsy optional is the same as an absent one: leaving out an empty
    [hostedZone], [cpu] or [memory] and a zero or NaN [cpuAvgThreshold]
    changes neither the requests nor the constructed service. *)
Theorem falsy_optionals_are_absent name args opts st :
  Service_new name (withoutFalsy args) opts st = Service_new name args opts st.
Proof.
  any_name name; [reflexivity|].
  destruct args as [serviceName image port [[|c1 cpu]|] [[|c2 memory]|]
                     [[mn mx [t|]]|] [[|c zone]|] vpcId region subnets tags];
    try reflexivity;
    unfold withoutFalsy, dropFalsy, Service_new, createLoadBalancer, tlsBranch,
      attachAutoscaling, createSecurityGroup, validateServiceArgs, or_else;
    cbn -[toBoolean];
    change (toBoolean (Some t)) with (toBoolean t);
    destruct (toBoolean t) eqn:E; cbn -[toBoolean]; rewrite ?E; reflexivity.
Qed.

(** X17: the load-balancer builder always returns normally, whatever the
    registry holds, and what it returns refers to its own requests: the id of
    its security group, the ARN of its target group and, always present, the
    DNS name of its load balancer. *)
Theorem createLoadBalancer_result this_name args opts st :
  exists lb sg alb targetGroup dns,
    createLoadBalancer this_name args opts st
    = (Ok lb, (st ++ requests (createLoadBalancer this_name args opts))%list) /\
    resourcesOfType EC2_SecurityGroup
      (requests (createLoadBalancer this_name args opts)) = [sg] /\
    resourcesOfType LB_LoadBalancer
      (requests (createLoadBalancer this_name args opts)) = [alb] /\
    resourcesOfType LB_TargetGroup
      (requests (createLoadBalancer this_name args opts)) = [targetGroup] /\
    dnsName lb = Some dns /\
    forall e,
      securityGroupId lb e = attribute e (urnOf sg) "id" /\
      targetGroupArn lb e = attribute e (urnOf targetGroup) "arn" /\
      dns e = attribute e (urnOf alb) "dnsName".
Proof.
  any_name this_name;
    destruct args as [serviceName vpcId subnets [[|c zone]|] tags];
    run; repeat rewrite <- app_assoc; do 5 eexists;
    (split; [reflexivity|]); repeat split; reflexivity.
Qed.

(** X19: under an empty unique name the construction is refused by the base
    constructor, before the validator and whatever the arguments and
    options: it throws, no request is issued and the registry is left as it
    was; under any other name it succeeds. *)
Theorem empty_name_is_refused name args opts st :
  (name = "" ->
     exists message,
       Service_new name args opts st = (Throw message, st) /\
       requests (Service_new name args opts) = []) /\
  (name <> "" ->
     exists svc, outcome (Service_new name args opts) st = Ok svc).
Proof.
  split.
  - intros ->. eexists. split; reflexivity.
  - intros Hn. destruct (Service_new_run name args opts st Hn) as (svc & Hrun).
    exists svc. unfold outcome. now rewrite Hrun.
Qed.

End Program.

(** ** The model on the sample configurations *)

Open Scope float_scope.

Example falsy_values :
  (toBoolean (Some ""), toBoolean (Some "labs.example.com"), toBoolean (@None string),
   toBoolean (Some 0), toBoolean (Some (-0)), toBoolean (Some nan), toBoolean (Some 50))
  = (false, true, false, false, false, false, true).
Proof. reflexivity. Qed.

Example nginx_with_zone_requests :
  map urnOf (requests (Service_new "dev" sampleStringify "web"
                         (nginx (Some "labs.example.com") None None None) None))
  = [ mkURN Component_Service "web";
      mkURN ECS_Cluster "web-cluster";
      mkURN EC2_SecurityGroup "web-alb-security-group";
      mkURN LB_LoadBalancer "web-app-lb";
      mkURN LB_TargetGroup "web-lb-target-group";
      mkURN Route53_Record "web-dns-record";
      mkURN ACM_Certificate "web-certificate";
      mkURN Route53_Record "web-certificate-dns-validation";
      mkURN ACM_CertificateValidation "web-certificate-validation";
      mkURN LB_Listener "listener";
      mkURN EC2_SecurityGroup "web-security-group";
      mkURN IAM_Policy "web-task-exec-policy";
      mkURN IAM_Role "web-task-exec-role";
      mkURN ECS_TaskDefinition "web-task-definitions";
      mkURN EC2_SecurityGroupRule "web-alb-ecs-egress";
      mkURN ECS_Service "web-app-service" ].
Proof. reflexivity. Qed.

Example nginx_with_zone_url :
  outcome (Service_new "dev" sampleStringify "web"
             (nginx (Some "labs.example.com") None None None) None) []
  = Ok {| name := "web"; url := inl "https://nginx-dev.labs.example.com" |}.
Proof. reflexivity. Qed.

Example nginx_without_zone_url (e : Engine) :
  match outcome (Service_new "dev" sampleStringify "web"
                   (nginx None None None None) None) [] with
  | Ok svc => resolve (url svc) e
  | Throw _ => ""
  end
  = "http://" ++ attribute e (mkURN LB_LoadBalancer "web-app-lb") "dnsName".
Proof. reflexivity. Qed.

(** The unique names of the sample components are not empty. *)
Lemma web_is_a_name : "web" <> "".
Proof. discriminate. Qed.

Lemma api_is_a_name : "api" <> "".
Proof. discriminate. Qed.

(** *** C1 *)

Lemma tls_ingress_sample :
  lb_hostedZone (nginxLoadBalancer (Some "labs.example.com")) = Some "labs.example.com" /\
  "labs.example.com" <> "" /\
  tlsIngress
    (requests (createLoadBalancer "dev" "web"
                 (nginxLoadBalancer (Some "labs.example.com")) None))
    "nginx-dev.labs.example.com".
Proof.
  split; [reflexivity|]. split; [discriminate|].
  apply (tls_ingress_when_zone_nonempty "dev" "web"
           (nginxLoadBalancer (Some "labs.example.com")) None "labs.example.com");
    [reflexivity | discriminate].
Defined.

(** With [hostedZone] set to the empty string, [hostedZone ? _ : _] takes the
    branch of an unset zone: the listener is the plain HTTP one. *)
Lemma empty_zone_is_not_tls :
  lb_hostedZone (nginxLoadBalancer (Some "")) = Some "" /\
  plainIngress
    (requests (createLoadBalancer "dev" "web" (nginxLoadBalancer (Some "")) None)) /\
  ~ tlsIngress
      (requests (createLoadBalancer "dev" "web" (nginxLoadBalancer (Some "")) None))
      (stackName "dev" "nginx" ++ "." ++ "").
Proof.
  split; [reflexivity|]. split.
  - now apply createLoadBalancer_plain.
  - intros (l & tg & cert & v & (Hl & _ & Hproto) & _).
    vm_compute in Hl. injection Hl as <-.
    vm_compute in Hproto. discriminate Hproto.
Qed.

(** *** C2 *)

Lemma plain_ingress_sample :
  lb_hostedZone (nginxLoadBalancer None) = None /\
  plainIngress
    (requests (createLoadBalancer "dev" "web" (nginxLoadBalancer None) None)).
Proof.
  split; [reflexivity|].
  apply (plain_ingress_when_zone_unset "dev" "web" (nginxLoadBalancer None) None).
  reflexivity.
Defined.

(** *** C3 *)

Lemma url_sample :
  exists svc,
    outcome (Service_new "dev" sampleStringify "web"
               (nginx (Some "labs.example.com") None None None) None) [] = Ok svc /\
    httpsUrl svc "nginx-dev.labs.example.com".
Proof.
  destruct (url_follows_zone "dev" sampleStringify "web"
              (nginx (Some "labs.example.com") None None None) None []
              web_is_a_name)
    as (svc & Hrun & Hs & _).
  exists svc. split; [exact Hrun|].
  apply (Hs "labs.example.com"); [reflexivity | discriminate].
Defined.

(** With [hostedZone] set to the empty string the url is the plain-HTTP one. *)
Lemma empty_zone_url_is_http :
  hostedZone (nginx (Some "") None None None) = Some "" /\
  exists svc,
    outcome (Service_new "dev" sampleStringify "web"
               (nginx (Some "") None None None) None) [] = Ok svc /\
    httpUrlOfLoadBalancer svc
      (requests (Service_new "dev" sampleStringify "web"
                   (nginx (Some "") None None None) None)) /\
    ~ httpsUrl svc (stackName "dev" "nginx" ++ "." ++ "").
Proof.
  split; [reflexivity|].
  destruct (Service_new_url "dev" sampleStringify "web"
              (nginx (Some "") None None None) None [] web_is_a_name)
    as (svc & Hrun & _ & Hp).
  exists svc. split; [exact Hrun|]. split; [now apply Hp|].
  vm_compute in Hrun. injection Hrun as <-.
  unfold httpsUrl. cbn. discriminate.
Qed.

(** *** C4 *)

Lemma autoscaling_sample :
  scalingResources
    (requests (Service_new "dev" sampleStringify "web"
                 (nginx None None None (Some (scaling (Some 50)))) None))
    (scaling (Some 50)) 50 /\
  noScalingResources
    (requests (Service_new "dev" sampleStringify "web"
                 (nginx None None None None) None)).
Proof.
  destruct (autoscaling_attachment "dev" sampleStringify "web"
              (nginx None None None (Some (scaling (Some 50)))) None
              web_is_a_name)
    as (Hgiven & _).
  destruct (autoscaling_attachment "dev" sampleStringify "web"
              (nginx None None None None) None web_is_a_name)
    as (_ & _ & _ & Habsent).
  split; [apply Hgiven | apply Habsent]; reflexivity.
Defined.

(** With [cpuAvgThreshold: 0], [cpuAvgThreshold || 75] is 75. *)
Lemma zero_threshold_gives_default :
  autoscaling (nginx None None None (Some (scaling (Some 0)))) = Some (scaling (Some 0)) /\
  cpuAvgThreshold (scaling (Some 0)) = Some 0 /\
  scalingResources
    (requests (Service_new "dev" sampleStringify "web"
                 (nginx None None None (Some (scaling (Some 0)))) None))
    (scaling (Some 0)) 75 /\
  ~ scalingResources
      (requests (Service_new "dev" sampleStringify "web"
                   (nginx None None None (Some (scaling (Some 0)))) None))
      (scaling (Some 0)) 0.
Proof.
  split; [reflexivity|]. split; [reflexivity|]. split.
  - now apply (Service_new_scaling "dev" sampleStringify "web"
                 (nginx None None None (Some (scaling (Some 0)))) None
                 (scaling (Some 0)) web_is_a_name).
  - intros (t & p & tracking & _ & _ & _ & Hp & _ & Htr & Hv).
    vm_compute in Hp. injection Hp as <-.
    vm_compute in Htr. injection Htr as <-.
    apply (f_equal (fun v => match v with
                             | Some (VNumber n) => is_zero n
                             | _ => false
                             end)) in Hv.
    vm_compute in Hv. discriminate Hv.
Qed.

(** *** C5 *)

Lemma reservations_sample :
  taskDefinitionHas
    (requests (Service_new "dev" sampleStringify "web"
                 (nginx None (Some "1024") (Some "2048") None) None)) "cpu" "1024" /\
  taskDefinitionHas
    (requests (Service_new "dev" sampleStringify "web"
                 (nginx None (Some "1024") (Some "2048") None) None)) "memory" "2048" /\
  taskDefinitionHas
    (requests (Service_new "dev" sampleStringify "web"
                 (nginx None None None None) None)) "cpu" "256" /\
  taskDefinitionHas
    (requests (Service_new "dev" sampleStringify "web"
                 (nginx None None None None) None)) "memory" "512".
Proof.
  destruct (reservations_default_and_pass_through "dev" sampleStringify "web"
              (nginx None (Some "1024") (Some "2048") None) None web_is_a_name)
    as (_ & _ & Hc & Hm & _).
  destruct (reservations_default_and_pass_through "dev" sampleStringify "web"
              (nginx None None None None) None web_is_a_name)
    as (Hc0 & Hm0 & _).
  split; [apply Hc; [reflexivity | discriminate]|].
  split; [apply Hm; [reflexivity | discriminate]|].
  split; [apply Hc0 | apply Hm0]; reflexivity.
Defined.

(** With [cpu: ""], [cpu || "256"] is "256". *)
Lemma empty_cpu_gives_default :
  cpu (nginx None (Some "") (Some "") None) = Some "" /\
  taskDefinitionHas
    (requests (Service_new "dev" sampleStringify "web"
                 (nginx None (Some "") (Some "") None) None)) "cpu" "256" /\
  ~ taskDefinitionHas
      (requests (Service_new "dev" sampleStringify "web"
                   (nginx None (Some "") (Some "") None) None)) "cpu" "".
Proof.
  split; [reflexivity|]. split.
  - apply (Service_new_reservations "dev" sampleStringify "web"
             (nginx None (Some "") (Some "") None) None web_is_a_name).
  - intros (td & Htd & Hc).
    vm_compute in Htd. injection Htd as <-.
    vm_compute in Hc. discriminate Hc.
Qed.

(** *** C6 *)


(** *** C7, C8 *)

Example security_group_sample :
  exists sg,
    requests (createSecurityGroup "dev" "web" nginxSecurityGroup None) = [sg] /\
    rname sg = "web-security-group" /\
    getField "name" (rargs sg) = Some (VString "ecs-nginx-dev") /\
    ingressFromPeerOnly sg 8080 (sg_lbSecurityGroupId nginxSecurityGroup) /\
    egressUnrestricted sg.
Proof. eexists. split; [reflexivity|]. repeat split. Qed.

(** The malformed sample (empty service name, port -1, bounds 0 and -3) is
    accepted: all fourteen requests are issued. *)
Lemma malformed_arguments_accepted :
  "web" <> "" /\
  validateServiceArgs malformed [] = (Ok tt, []) /\
  exists svc,
    Service_new "dev" sampleStringify "web" malformed None []
    = (Ok svc, requests (Service_new "dev" sampleStringify "web" malformed None)) /\
    length (requests (Service_new "dev" sampleStringify "web" malformed None))
    = 14%nat.
Proof.
  split; [exact web_is_a_name|].
  destruct (validator_never_rejects "dev" sampleStringify "web" malformed None [])
    as [Hvalid Hruns].
  split; [exact Hvalid | exact (Hruns web_is_a_name)].
Defined.

(** *** C9, C10 *)

Lemma security_group_name_sample :
  "web" <> "" /\
  exists albSg sg,
    resourcesOfType EC2_SecurityGroup
      (requests (Service_new "dev" sampleStringify "web"
                   (nginx None None None None) None)) = [albSg; sg] /\
    rname sg = "web-security-group" /\
    getField "name" (rargs sg) = Some (VString "ecs-nginx-dev-dev").
Proof.
  split; [exact web_is_a_name|].
  destruct (service_security_group_name_qualified_twice "dev" sampleStringify "web"
              (nginx None None None None) None web_is_a_name)
    as (albSg & sg & _ & _ & Hsgs & Hname & Hfield & _).
  exists albSg, sg. repeat split; assumption.
Defined.

Lemma two_listeners_sample :
  "web" <> "" /\ "api" <> "" /\
  exists l1 l2,
    resourcesOfType LB_Listener
      (requests (Service_new "dev" sampleStringify "web"
                   (nginx None None None None) None)) = [l1] /\
    resourcesOfType LB_Listener
      (requests (Service_new "dev" sampleStringify "api"
                   (nginx (Some "labs.example.com") None None None) None)) = [l2] /\
    urnOf l1 = urnOf l2.
Proof.
  split; [exact web_is_a_name|]. split; [exact api_is_a_name|].
  destruct (listener_name_is_fixed "dev" sampleStringify "web"
              (nginx None None None None) None web_is_a_name)
    as (_ & _ & Htwo).
  destruct (Htwo "api" (nginx (Some "labs.example.com") None None None) None []
              api_is_a_name)
    as (_ & _ & l1 & l2 & _ & H1 & H2 & _ & Hu).
  exists l1, l2. repeat split; assumption.
Defined.

(** *** Further properties on the samples *)

Tactic Notation "nth_request" integer(n) := cbn; do n right; left; reflexivity.

(** The listener of the sample is a child of the component although the
    caller's options name another parent. *)
Lemma parent_sample :
  exists r,
    In r (requests (Service_new "dev" sampleStringify "web"
                      (nginx (Some "labs.example.com") None None None) sampleOptions)) /\
    rtype r = LB_Listener /\
    parent (optionsOf r) = Some (mkURN Component_Service "web").
Proof.
  eexists. split; [nth_request 9|]. split; [reflexivity|].
  apply (children_parent_is_component "dev" sampleStringify "web"
           (nginx (Some "labs.example.com") None None None) sampleOptions);
    [nth_request 9 | discriminate].
Defined.

(** The cluster of the sample keeps the caller's dependency; the listener
    does not. *)
Lemma options_sample :
  (exists r,
     In r (requests (Service_new "dev" sampleStringify "web"
                       (nginx None None None None) sampleOptions)) /\
     rtype r = ECS_Cluster /\
     otherOptions (optionsOf r) = [("protect", VBool true)] /\
     dependsOn (optionsOf r) = Some [mkURN ECS_Cluster "shared-cluster"]) /\
  (exists r,
     In r (requests (Service_new "dev" sampleStringify "web"
                       (nginx None None None None) sampleOptions)) /\
     rtype r = LB_Listener /\
     dependsOn (optionsOf r) = Some [mkURN LB_TargetGroup "web-lb-target-group"]).
Proof.
  split.
  - eexists. split; [nth_request 1|]. split; [reflexivity|].
    destruct (options_pass_through "dev" sampleStringify "web"
                (nginx None None None None) sampleOptions _
                ltac:(nth_request 1) ltac:(discriminate))
      as (Hother & Hdeps & _).
    split; [exact Hother|]. apply Hdeps; discriminate.
  - eexists. split; [nth_request 5|]. split; reflexivity.
Defined.

Lemma tags_sample :
  exists r,
    In r (requests (Service_new "dev" sampleStringify "web"
                      (nginx None None None None) None)) /\
    rtype r = ECS_Cluster /\
    getField "tags" (rargs r) = Some (VObject [("team", VString "labs")]).
Proof.
  eexists. split; [nth_request 1|]. split; [reflexivity|].
  apply (tags_on_taggable_requests "dev" sampleStringify "web"
           (nginx None None None None) None).
  nth_request 1.
Defined.

Lemma tls_wiring_sample :
  lb_hostedZone (nginxLoadBalancer (Some "labs.example.com")) = Some "labs.example.com" /\
  "labs.example.com" <> "" /\
  exists cert validationRecord validation listener,
    resourcesOfType ACM_CertificateValidation
      (requests (createLoadBalancer "dev" "web"
                   (nginxLoadBalancer (Some "labs.example.com")) None)) = [validation] /\
    resourcesOfType LB_Listener
      (requests (createLoadBalancer "dev" "web"
                   (nginxLoadBalancer (Some "labs.example.com")) None)) = [listener] /\
    explicitDependencies validation = [urnOf validationRecord] /\
    getField "certificateArn" (rargs listener)
      = Some (VOutput (attr (urnOf cert) "arn")).
Proof.
  split; [reflexivity|]. split; [discriminate|].
  destruct (tls_branch_wiring "dev" "web"
              (nginxLoadBalancer (Some "labs.example.com")) None "labs.example.com"
              eq_refl ltac:(discriminate))
    as (alb & cert & ar & vr & v & l & _ & _ & _ & Hv & Hl & _ & _ & _ & _ & _ & Hd & Hc).
  exists cert, vr, v, l. repeat split; assumption.
Defined.

Lemma plain_listener_sample :
  lb_hostedZone (nginxLoadBalancer (Some "")) = Some "" /\
  exists listener,
    resourcesOfType LB_Listener
      (requests (createLoadBalancer "dev" "web" (nginxLoadBalancer (Some "")) None))
      = [listener] /\
    getField "certificateArn" (rargs listener) = None.
Proof.
  split; [reflexivity|].
  apply (plain_listener_has_no_certificate "dev" "web" (nginxLoadBalancer (Some "")) None).
  right. reflexivity.
Defined.

Lemma scaling_attachment_sample :
  autoscaling (nginx None None None (Some (scaling (Some 50)))) = Some (scaling (Some 50)) /\
  exists scalingTarget policy resourceId,
    resourcesOfType AppAutoscaling_Target
      (requests (Service_new "dev" sampleStringify "web"
                   (nginx None None None (Some (scaling (Some 50)))) None))
      = [scalingTarget] /\
    resourcesOfType AppAutoscaling_Policy
      (requests (Service_new "dev" sampleStringify "web"
                   (nginx None None None (Some (scaling (Some 50)))) None))
      = [policy] /\
    getField "resourceId" (rargs scalingTarget) = Some (VOutput resourceId) /\
    getField "resourceId" (rargs policy) = Some (VOutput resourceId).
Proof.
  split; [reflexivity|].
  destruct (scaling_policy_targets_scaling_target "dev" sampleStringify "web"
              (nginx None None None (Some (scaling (Some 50)))) None
              (scaling (Some 50)) web_is_a_name eq_refl)
    as (cl & sv & t & p & rid & tr & m & _ & _ & Ht & Hp & Hrt & Hrp & _).
  exists t, p, rid. repeat split; assumption.
Defined.

Lemma traffic_path_sample :
  "web" <> "" /\
  exists targetGroup listener,
    resourcesOfType LB_TargetGroup
      (requests (Service_new "dev" sampleStringify "web"
                   (nginx None None None None) None)) = [targetGroup] /\
    resourcesOfType LB_Listener
      (requests (Service_new "dev" sampleStringify "web"
                   (nginx None None None None) None)) = [listener] /\
    getField "defaultActions" (rargs listener)
      = Some (VArray [ VObject [ ("type", VString "forward");
                                 ("targetGroupArn",
                                  VOutput (attr (urnOf targetGroup) "arn")) ] ]).
Proof.
  split; [exact web_is_a_name|].
  destruct (traffic_path_is_consistent "dev" sampleStringify "web"
              (nginx None None None None) None web_is_a_name)
    as (alb & tg & l & ecs & td & c & cn & _ & Htg & Hl & _ & _ & _ & Hfw & _).
  exists tg, l. repeat split; assumption.
Defined.

Lemma egress_rule_sample :
  "web" <> "" /\
  exists albSg sg rule,
    resourcesOfType EC2_SecurityGroup
      (requests (Service_new "dev" sampleStringify "web"
                   (nginx None None None None) None)) = [albSg; sg] /\
    resourcesOfType EC2_SecurityGroupRule
      (requests (Service_new "dev" sampleStringify "web"
                   (nginx None None None None) None)) = [rule] /\
    ingressFromPeerOnly sg 80 (attr (urnOf albSg) "id").
Proof.
  split; [exact web_is_a_name|].
  destruct (egress_rule_pairs_security_groups "dev" sampleStringify "web"
              (nginx None None None None) None web_is_a_name)
    as (albSg & sg & rule & Hsgs & Hrule & Hin & _).
  exists albSg, sg, rule. repeat split; assumption.
Defined.

Lemma constructor_ingress_sample :
  "web" <> "" /\
  tlsIngress
    (requests (Service_new "dev" sampleStringify "web"
                 (nginx (Some "labs.example.com") None None None) None))
    "nginx-dev.labs.example.com" /\
  plainIngress
    (requests (Service_new "dev" sampleStringify "web"
                 (nginx (Some "") None None None) None)).
Proof.
  split; [exact web_is_a_name|].
  destruct (constructor_ingress_follows_zone "dev" sampleStringify "web"
              (nginx (Some "labs.example.com") None None None) None web_is_a_name)
    as (Htls & _).
  destruct (constructor_ingress_follows_zone "dev" sampleStringify "web"
              (nginx (Some "") None None None) None web_is_a_name)
    as (_ & Hplain).
  split.
  - apply (Htls "labs.example.com"); [reflexivity | discriminate].
  - apply Hplain. right. reflexivity.
Defined.

Lemma request_count_sample :
  "web" <> "" /\
  length (requests (Service_new "dev" sampleStringify "web"
                      (nginx (Some "labs.example.com") None None
                         (Some (scaling None))) None)) = 18%nat.
Proof.
  split; [exact web_is_a_name|].
  exact (request_count "dev" sampleStringify "web"
           (nginx (Some "labs.example.com") None None (Some (scaling None))) None
           web_is_a_name).
Defined.

Lemma policy_log_group_sample :
  "web" <> "" /\
  exists policy td,
    resourcesOfType IAM_Policy
      (requests (Service_new "dev" sampleStringify "web"
                   (nginx None None None None) None)) = [policy] /\
    resourcesOfType ECS_TaskDefinition
      (requests (Service_new "dev" sampleStringify "web"
                   (nginx None None None None) None)) = [td].
Proof.
  split; [exact web_is_a_name|].
  destruct (policy_covers_container_log_group "dev" sampleStringify "web"
              (nginx None None None None) None web_is_a_name)
    as (policy & td & d & c & lc & o & g & Hp & Htd & _).
  exists policy, td. split; assumption.
Defined.

Lemma execution_chain_sample :
  "web" <> "" /\
  exists role td,
    resourcesOfType IAM_Role
      (requests (Service_new "dev" sampleStringify "web"
                   (nginx None None None None) None)) = [role] /\
    resourcesOfType ECS_TaskDefinition
      (requests (Service_new "dev" sampleStringify "web"
                   (nginx None None None None) None)) = [td] /\
    getField "executionRoleArn" (rargs td) = Some (VOutput (attr (urnOf role) "arn")).
Proof.
  split; [exact web_is_a_name|].
  destruct (execution_chain "dev" sampleStringify "web"
              (nginx None None None None) None web_is_a_name)
    as (cl & p & role & td & ecs & _ & _ & Hrole & Htd & _ & _ & _ & _ & _ & _
        & _ & _ & Hexec & _).
  exists role, td. repeat split; assumption.
Defined.

Lemma same_subnets_sample :
  "web" <> "" /\
  exists alb,
    resourcesOfType LB_LoadBalancer
      (requests (Service_new "dev" sampleStringify "web"
                   (nginx None None None None) None)) = [alb] /\
    getField "subnets" (rargs alb)
      = Some (VArray (map (fun s => VOutput (id (resource s))) sampleSubnets)).
Proof.
  split; [exact web_is_a_name|].
  destruct (same_subnets "dev" sampleStringify "web"
              (nginx None None None None) None web_is_a_name)
    as (alb & ecs & nw & albSg & sg & Halb & _ & _ & Hsub & _).
  exists alb. split; assumption.
Defined.

(** An empty unique name: the construction throws and requests nothing. *)
Example empty_name_sample :
  Service_new "dev" sampleStringify "" (nginx None None None None) None []
  = (Throw "Missing resource name argument (for URN creation)", []).
Proof. reflexivity. Qed.

(** Across stacks the naming helper is not injective: the separator may
    occur in the name and in the stack identifier. *)
Example stackName_clash_across_stacks :
  stackName "b-c" "a" = stackName "c" "a-b".
Proof. reflexivity. Qed.
